(** * cupy/_binary/packing.py : packbits / unpackbits

    A shallow embedding of the two entry points [packbits] and [unpackbits]
    and of the four element-wise device kernels they dispatch to, followed by
    the properties of the bit-packing codec.

    Conventions.
    - A C [int] / [int32] is a [Z] passed through [to_int32]; a [uint8] is a
      [Z] passed through [to_uint8].  Python integers are unbounded [Z].
    - An array is its element type tag, its shape and its elements in
      row-major (C) order.  For the boolean and integer kinds an element is
      its numeric value; for the float and complex kinds it is the raw bit
      pattern of the item, which no code path below ever interprets.
    - A Python call returns a [result]: a value, a raised exception, or
      [Undefined] when device code would read outside a buffer. *)

From Stdlib Require Import ZArith List String Ascii Bool Lia.
Import ListNotations.

Local Open Scope string_scope.
Local Open Scope Z_scope.

(* ------------------------------------------------------------------ *)
(** ** Python values, exceptions and results *)

Module Py.

(** The scalar Python objects a caller passes for [axis] and [bitorder]. *)
Inductive pyval : Type :=
| PyNone
| PyBool (b : bool)
| PyInt (z : Z)
| PyStr (s : string).

(** Exceptions raised by the module.  [UnboundLocalError] is the subclass
    of [NameError] that CPython raises when a local name is read before it
    has been assigned. *)
Inductive exn : Type :=
| TypeError (msg : string)
| ValueError (msg : string)
| KeyError (key : pyval)
| NameError (name : string)
| UnboundLocalError (name : string).

Inductive result (A : Type) : Type :=
| Ok (a : A)
| Raise (e : exn)
| Undefined.

Arguments Ok {A} a.
Arguments Raise {A} e.
Arguments Undefined {A}.

Definition bind {A B} (m : result A) (k : A -> result B) : result B :=
  match m with
  | Ok a => k a
  | Raise e => Raise e
  | Undefined => Undefined
  end.

(** [isinstance(e, NameError)]. *)
Definition isinstance_NameError (e : exn) : bool :=
  match e with
  | NameError _ | UnboundLocalError _ => true
  | _ => false
  end.

(** [isinstance(e, TypeError)] and [isinstance(e, ValueError)]. *)
Definition isinstance_TypeError (e : exn) : bool :=
  match e with TypeError _ => true | _ => false end.

Definition isinstance_ValueError (e : exn) : bool :=
  match e with ValueError _ => true | _ => false end.

(** [x == s] for a string literal [s]: only a [str] compares equal. *)
Definition eq_str (x : pyval) (s : string) : bool :=
  match x with
  | PyStr t => String.eqb t s
  | _ => false
  end.

(** [x in (s1, s2, ...)] and [x in [s1, s2, ...]] over string literals. *)
Definition In_strs (x : pyval) (ss : list string) : bool :=
  existsb (eq_str x) ss.

(** [c in s] for a one-character string [c]. *)
Fixpoint char_in (c : ascii) (s : string) : bool :=
  match s with
  | EmptyString => false
  | String d s' => Ascii.eqb c d || char_in c s'
  end.

(** Reading a local variable: a slot never assigned raises. *)
Definition load_fast {A} (name : string) (slot : option A) : result A :=
  match slot with
  | Some v => Ok v
  | None => Raise (UnboundLocalError name)
  end.

(** Subscripting a dict whose keys are string literals. *)
Fixpoint dict_getitem {V} (d : list (string * V)) (key : pyval) : result V :=
  match d with
  | [] => Raise (KeyError key)
  | (k, v) :: d' => if eq_str key k then Ok v else dict_getitem d' key
  end.

End Py.
Import Py.

Notation "x <- m ;; k" := (Py.bind m (fun x => k))
  (at level 61, m at next level, right associativity).

(* ------------------------------------------------------------------ *)
(** ** Machine integers *)

Definition to_int32 (z : Z) : Z := (z + 2 ^ 31) mod 2 ^ 32 - 2 ^ 31.
Definition to_uint8 (z : Z) : Z := z mod 2 ^ 8.

(* ------------------------------------------------------------------ *)
(** ** Arrays *)

Inductive dtype : Type :=
| bool_ | int8 | int16 | int32 | int64
| uint8 | uint16 | uint32 | uint64
| float16 | float32 | float64
| complex64 | complex128.

Definition dtype_eqb (s t : dtype) : bool :=
  match s, t with
  | bool_, bool_ | int8, int8 | int16, int16 | int32, int32 | int64, int64
  | uint8, uint8 | uint16, uint16 | uint32, uint32 | uint64, uint64
  | float16, float16 | float32, float32 | float64, float64
  | complex64, complex64 | complex128, complex128 => true
  | _, _ => false
  end.

(** [dtype.kind]: the one-character kind code. *)
Definition kind (t : dtype) : ascii :=
  match t with
  | bool_ => "b"%char
  | int8 | int16 | int32 | int64 => "i"%char
  | uint8 | uint16 | uint32 | uint64 => "u"%char
  | float16 | float32 | float64 => "f"%char
  | complex64 | complex128 => "c"%char
  end.

Record ndarray : Type := mk_ndarray {
  dtype_of : dtype;
  shape : list nat;
  data : list Z
}.

(** Modelled from the spec: [a.size] of the host container, the "scalar
    count" of the array: the product of the extents. *)
Definition size (a : ndarray) : Z :=
  Z.of_nat (fold_right Nat.mul 1%nat (shape a)).

(** An array holds exactly [size] elements. *)
Definition well_formed (a : ndarray) : Prop :=
  Z.of_nat (List.length (data a)) = size a.

(** Modelled from the spec: [ndarray.ravel], part of the host array
    container that is not in this file's source; it linearises the array
    ("multi-dimensional arrays must be linearized"), keeping row-major
    order. *)
Definition ravel (a : ndarray) : ndarray :=
  mk_ndarray (dtype_of a) [List.length (data a)] (data a).

(** Modelled from the spec: [cupy.zeros((n,), dtype)], the host container's
    allocation of a zero-initialised buffer ("Initialize output byte i to
    0"). *)
Definition zeros (n : Z) (t : dtype) : ndarray :=
  mk_ndarray t [Z.to_nat n] (repeat 0 (Z.to_nat n)).

(** Modelled from the spec: [cupy.ndarray(n, dtype)], the host container's
    allocation of a fresh buffer.  Its contents are whatever the memory
    held, given here by [junk]. *)
Definition empty (junk : nat -> Z) (n : Z) (t : dtype) : ndarray :=
  mk_ndarray t [Z.to_nat n] (map junk (seq 0 (Z.to_nat n))).

(** Modelled from the spec: subscripting a [raw] kernel argument, a "plain
    linear buffer" of the host container, with a linear index: element [k]
    in row-major order; outside the buffer the read is undefined. *)
Definition raw_index (a : ndarray) (k : Z) : result Z :=
  if k <? 0 then Undefined
  else match nth_error (data a) (Z.to_nat k) with
       | Some v => Ok v
       | None => Undefined
       end.

(* ------------------------------------------------------------------ *)
(** ** Element-wise kernels *)

(** The C loop [for (int j = 0; j < 8; ++j) { ... }], as [count] rounds
    starting at [j]; the loop body updates the one variable it writes. *)
Fixpoint for_int (count : nat) (j : Z) (body : Z -> Z -> result Z) (acc : Z)
  : result Z :=
  match count with
  | O => Ok acc
  | S count' => acc' <- body j acc ;; for_int count' (j + 1) body acc'
  end.

(** [k < myarray_size && myarray[k] != 0], with C's short-circuit: the
    element is read only when the comparison holds. *)
Definition in_range_and_nonzero (myarray : ndarray) (myarray_size k : Z)
  : result Z :=
  if k <? myarray_size
  then v <- raw_index myarray k ;; Ok (if v =? 0 then 0 else 1)
  else Ok 0.

(** Body of [cupy_packbits_big], run for output index [i] on the current
    value of [packed]. *)
Definition cupy_packbits_big (myarray : ndarray) (myarray_size i packed : Z)
  : result Z :=
  for_int 8 0
    (fun j packed =>
       let k := to_int32 (i * 8 + j) in
       bit <- in_range_and_nonzero myarray myarray_size k ;;
       Ok (to_uint8 (Z.lor packed (Z.shiftl bit (7 - j)))))
    packed.

(** Body of [cupy_packbits_little]. *)
Definition cupy_packbits_little (myarray : ndarray) (myarray_size i packed : Z)
  : result Z :=
  for_int 8 0
    (fun j packed =>
       let k := to_int32 (i * 8 + j) in
       bit <- in_range_and_nonzero myarray myarray_size k ;;
       Ok (to_uint8 (Z.lor packed (Z.shiftl bit j))))
    packed.

(** Body of [cupy_unpackbits_big]: [unpacked = (myarray[i / 8] >> (7 - i % 8)) & 1]. *)
Definition cupy_unpackbits_big (myarray : ndarray) (i unpacked : Z)
  : result Z :=
  b <- raw_index myarray (Z.quot i 8) ;;
  Ok (Z.land (Z.shiftr b (7 - Z.rem i 8)) 1).

(** Body of [cupy_unpackbits_little]: [unpacked = (myarray[i / 8] >> (i % 8)) & 1]. *)
Definition cupy_unpackbits_little (myarray : ndarray) (i unpacked : Z)
  : result Z :=
  b <- raw_index myarray (Z.quot i 8) ;;
  Ok (Z.land (Z.shiftr b (Z.rem i 8)) 1).

(** Modelled from the spec: the launch of a [_core.ElementwiseKernel], whose
    class is not in this file's source.  The body is evaluated once "per
    output index i, independently"; index [i] starts from the value stored in
    the output array and "writes exactly one output location".  The output
    array keeps its element type and shape and is the value of the call. *)
Fixpoint elementwise_from (i : Z) (body : Z -> Z -> result Z) (out : list Z)
  : result (list Z) :=
  match out with
  | [] => Ok []
  | v :: out' =>
      v' <- body i v ;;
      rest <- elementwise_from (i + 1) body out' ;;
      Ok (v' :: rest)
  end.

Definition elementwise (body : Z -> Z -> result Z) (out : ndarray)
  : result ndarray :=
  d <- elementwise_from 0 body (data out) ;;
  Ok (mk_ndarray (dtype_of out) (shape out) d).

(** A kernel declared with ['raw T myarray, raw int32 myarray_size'] and
    ['uint8 packed']: the scalar argument arrives as an [int32]. *)
Definition pack_kernel : Type := ndarray -> Z -> ndarray -> result ndarray.

Definition ElementwiseKernel_pack (body : ndarray -> Z -> Z -> Z -> result Z)
  : pack_kernel :=
  fun myarray myarray_size packed =>
    elementwise (body myarray (to_int32 myarray_size)) packed.

(** A kernel declared with ['raw uint8 myarray'] and ['T unpacked']. *)
Definition unpack_kernel : Type := ndarray -> ndarray -> result ndarray.

Definition ElementwiseKernel_unpack (body : ndarray -> Z -> Z -> result Z)
  : unpack_kernel :=
  fun myarray unpacked => elementwise (body myarray) unpacked.

Definition _packbits_kernel : list (string * pack_kernel) :=
  [ ("big", ElementwiseKernel_pack cupy_packbits_big);
    ("little", ElementwiseKernel_pack cupy_packbits_little) ].

Definition _unpackbits_kernel : list (string * unpack_kernel) :=
  [ ("big", ElementwiseKernel_unpack cupy_unpackbits_big);
    ("little", ElementwiseKernel_unpack cupy_unpackbits_little) ].

(* ------------------------------------------------------------------ *)
(** ** The entry points *)

(** The local variables of one call of [packbits].  The parameters [a],
    [axis] and [bitorder] are bound on entry.  [myarray], [packed_size] and
    [packed] are assigned in the body, which makes them locals too; they
    are unbound until their assignment runs. *)
Record packbits_locals : Type := mk_packbits_locals {
  l_a : ndarray;
  l_axis : pyval;
  l_bitorder : pyval;
  l_myarray : option ndarray;
  l_packed_size : option Z;
  l_packed : option ndarray
}.

(** Assignment to a local. *)
Definition store_myarray (v : ndarray) (fr : packbits_locals) : packbits_locals :=
  mk_packbits_locals (l_a fr) (l_axis fr) (l_bitorder fr)
    (Some v) (l_packed_size fr) (l_packed fr).

Definition store_packed_size (v : Z) (fr : packbits_locals) : packbits_locals :=
  mk_packbits_locals (l_a fr) (l_axis fr) (l_bitorder fr)
    (l_myarray fr) (Some v) (l_packed fr).

Definition store_packed (v : ndarray) (fr : packbits_locals) : packbits_locals :=
  mk_packbits_locals (l_a fr) (l_axis fr) (l_bitorder fr)
    (l_myarray fr) (l_packed_size fr) (Some v).

(** The body of [packbits], run in a given frame of locals. *)
Definition packbits_body (fr : packbits_locals) : result ndarray :=
  myarray <- load_fast "myarray" (l_myarray fr) ;;
  if negb (char_in (kind (dtype_of myarray)) "biu")
  then Raise (TypeError "Expected an input array of integer or boolean data type")
  else
    if negb (In_strs (l_bitorder fr) ["big"; "little"])
    then Raise (ValueError "bitorder must be either 'big' or 'little'")
    else
      myarray <- load_fast "myarray" (l_myarray fr) ;;
      let fr := store_myarray (ravel myarray) fr in
      myarray <- load_fast "myarray" (l_myarray fr) ;;
      let fr := store_packed_size ((size myarray + 7) / 8) fr in
      packed_size <- load_fast "packed_size" (l_packed_size fr) ;;
      let fr := store_packed (zeros packed_size uint8) fr in
      kernel <- dict_getitem _packbits_kernel (l_bitorder fr) ;;
      myarray <- load_fast "myarray" (l_myarray fr) ;;
      packed <- load_fast "packed" (l_packed fr) ;;
      kernel myarray (size myarray) packed.

(** The frame on entry: the three parameters are bound, under the names
    of the signature; the other locals are not. *)
Definition entry_frame (a : ndarray) (axis bitorder : pyval)
  : packbits_locals :=
  mk_packbits_locals a axis bitorder None None None.

(** [def packbits(a, axis=None, bitorder='big')]. *)
Definition packbits (a : ndarray) (axis bitorder : pyval) : result ndarray :=
  packbits_body (entry_frame a axis bitorder).

Section Unpackbits.

(** What a freshly allocated buffer happens to hold. *)
Variable junk : nat -> Z.

(** [def unpackbits(myarray, bitorder='big')]. *)
Definition unpackbits (myarray : ndarray) (bitorder : pyval)
  : result ndarray :=
  if negb (dtype_eqb (dtype_of myarray) uint8)
  then Raise (TypeError "Expected an input array of unsigned byte data type")
  else
    if negb (In_strs bitorder ["big"; "little"])
    then Raise (ValueError "bitorder must be either 'big' or 'little'")
    else
      let unpacked := empty junk (size myarray * 8) uint8 in
      kernel <- dict_getitem _unpackbits_kernel bitorder ;;
      kernel myarray unpacked.

End Unpackbits.

(** Default arguments of the two signatures. *)
Definition default_axis : pyval := PyNone.
Definition default_bitorder : pyval := PyStr "big".

(** The frame [packbits] would start from had its first parameter been
    named [myarray], as the docstring and the body have it. *)
Definition frame_with_myarray (myarray : ndarray) (axis bitorder : pyval)
  : packbits_locals :=
  mk_packbits_locals myarray axis bitorder (Some myarray) None None.

(** One-dimensional arrays of a given element type. *)
Definition array1 (t : dtype) (d : list Z) : ndarray :=
  mk_ndarray t [List.length d] d.

(** The truth value of element [k] of a buffer: non-zero and in range. *)
Definition truthy (d : list Z) (k : nat) : bool :=
  match nth_error d k with
  | Some v => negb (v =? 0)
  | None => false
  end.

(** [ceil(n / 8)]. *)
Definition ceil8 (n : Z) : Z := (n + 7) / 8.

(** Physical bit position of logical bit [j] under a bit order. *)
Definition physical (bitorder : string) (j : Z) : Z :=
  if String.eqb bitorder "big" then 7 - j else j.

(* ------------------------------------------------------------------ *)
(** ** What the codec computes *)

(** The byte whose bit at the physical position of logical bit [j] is
    [f j], for [j] in [0..7]. *)
Definition byte_of (bitorder : string) (f : Z -> bool) : Z :=
  fold_left
    (fun acc j => Z.lor acc (Z.shiftl (Z.b2z (f j)) (physical bitorder j)))
    [0; 1; 2; 3; 4; 5; 6; 7] 0.

(** The window of eight truth values packed into output byte [i]. *)
Definition window (d : list Z) (i : Z) : Z -> bool :=
  fun j => truthy d (Z.to_nat (i * 8 + j)).

(** The bytes that packing [d] produces. *)
Definition packed_bytes (bitorder : string) (d : list Z) : list Z :=
  map (fun i => byte_of bitorder (window d (Z.of_nat i)))
      (seq 0 (Z.to_nat (ceil8 (Z.of_nat (List.length d))))).

(** Output element [i] of unpacking the bytes [d]. *)
Definition unpacked_bit (bitorder : string) (d : list Z) (i : nat) : Z :=
  Z.b2z (Z.testbit (nth (i / 8) d 0)
                   (physical bitorder (Z.of_nat (i mod 8)))).

Definition unpacked_bits (bitorder : string) (d : list Z) : list Z :=
  map (unpacked_bit bitorder d) (seq 0 (8 * List.length d)).

(** The truth values of positions [0 .. len - 1] of a buffer, as 0 or 1;
    positions past its end count as 0. *)
Definition truth_values (d : list Z) (len : nat) : list Z :=
  map (fun k => Z.b2z (truthy d k)) (seq 0 len).

(** Modelled from the spec: the position of a multi-index in the linear
    buffer of the host array container ("plain linear buffers"), in
    row-major order: the last index varies fastest. *)
Fixpoint offset (shp idx : list nat) : nat :=
  match shp, idx with
  | _ :: shp', k :: idx' => k * fold_right Nat.mul 1%nat shp' + offset shp' idx'
  | _, _ => 0%nat
  end.

(** [idx] addresses an element of an array of shape [shp]. *)
Definition in_bounds (shp idx : list nat) : Prop :=
  Forall2 (fun k n => (k < n)%nat) idx shp.

(** [a[idx]] for a full multi-index. *)
Definition getitem (a : ndarray) (idx : list nat) : Z :=
  nth (offset (shape a) idx) (data a) 0.

(** Unpacking what [packbits] returns, with the same bit order. *)
Definition unpack_of_pack (junk : nat -> Z) (x : ndarray)
           (axis bitorder : pyval) : result ndarray :=
  packed <- packbits x axis bitorder ;;
  unpackbits junk packed bitorder.

(** A buffer that happens to be all zero. *)
Definition zero_filled : nat -> Z := fun _ => 0.

(** The call ends in an exception of class [ValueError]. *)
Definition raises_ValueError (r : result ndarray) : Prop :=
  exists e, r = Raise e /\ isinstance_ValueError e = true.

(** The call returns an array of element type [t]. *)
Definition returns_dtype (t : dtype) (r : result ndarray) : Prop :=
  exists out, r = Ok out /\ dtype_of out = t.

(** The expression [_packbits_kernel[key](myarray, myarray_size, packed)]. *)
Definition launch_packbits_kernel (key : pyval) (myarray : ndarray)
           (myarray_size : Z) (packed : ndarray) : result ndarray :=
  kernel <- dict_getitem _packbits_kernel key ;;
  kernel myarray myarray_size packed.




(** An array of bytes. *)
Definition all_bytes (d : list Z) : Prop :=
  Forall (fun b => 0 <= b < 256) d.

(* ------------------------------------------------------------------ *)
(** ** Machine arithmetic *)

Lemma to_int32_id (z : Z) : - 2 ^ 31 <= z < 2 ^ 31 -> to_int32 z = z.
Proof.
  intros Hz. unfold to_int32.
  rewrite Z.mod_small by lia. lia.
Qed.

Lemma land_shiftr_1 (b n : Z) :
  0 <= n -> Z.land (Z.shiftr b n) 1 = Z.b2z (Z.testbit b n).
Proof.
  intros Hn.
  change 1 with (Z.ones 1).
  rewrite Z.land_ones by lia.
  rewrite <- Z.bit0_mod, Z.shiftr_spec by lia.
  now rewrite Z.add_0_l.
Qed.

Lemma b2z_bit (b : bool) : Z.b2z b = 0 \/ Z.b2z b = 1.
Proof. destruct b; auto. Qed.

Lemma quot_rem_nonneg (i : Z) :
  0 <= i -> Z.quot i 8 = i / 8 /\ Z.rem i 8 = i mod 8.
Proof.
  intros Hi. split.
  - apply Z.quot_div_nonneg; lia.
  - apply Z.rem_mod_nonneg; lia.
Qed.

(* ------------------------------------------------------------------ *)
(** ** The launch of a kernel *)

(** A launch whose body succeeds at every index yields the body's values,
    index by index. *)
Lemma elementwise_from_ok (body : Z -> Z -> result Z) (g : Z -> Z) :
  forall (out : list Z) (i : Z),
    (forall (n : nat) (v : Z),
        nth_error out n = Some v -> body (i + Z.of_nat n) v = Ok (g (i + Z.of_nat n))) ->
    elementwise_from i body out
    = Ok (map (fun n => g (i + Z.of_nat n)) (seq 0 (List.length out))).
Proof.
  induction out as [|v out IH]; intros i Hbody.
  - reflexivity.
  - cbn [elementwise_from List.length seq map].
    pose proof (Hbody 0%nat v eq_refl) as H0.
    cbn [Z.of_nat] in H0. rewrite Z.add_0_r in H0.
    rewrite H0. cbn [bind].
    rewrite IH.
    + cbn [bind]. rewrite Z.add_0_r. do 2 f_equal.
      rewrite <- seq_shift, map_map.
      apply map_ext. intros n. f_equal. lia.
    + intros n w Hn.
      replace (i + 1 + Z.of_nat n) with (i + Z.of_nat (S n)) by lia.
      apply Hbody. exact Hn.
Qed.

Lemma elementwise_ok (body : Z -> Z -> result Z) (g : Z -> Z) (out : ndarray) :
  (forall (n : nat) (v : Z),
      nth_error (data out) n = Some v -> body (Z.of_nat n) v = Ok (g (Z.of_nat n))) ->
  elementwise body out
  = Ok (mk_ndarray (dtype_of out) (shape out)
          (map (fun n => g (Z.of_nat n)) (seq 0 (List.length (data out))))).
Proof.
  intros Hbody. unfold elementwise.
  rewrite (elementwise_from_ok body g (data out) 0) by exact Hbody.
  reflexivity.
Qed.

Lemma nth_error_map_seq {A} (f : nat -> A) (len n : nat) :
  (n < len)%nat -> nth_error (map f (seq 0 len)) n = Some (f n).
Proof.
  intros Hn.
  rewrite nth_error_map, nth_error_seq.
  destruct (Nat.ltb_spec n len); [reflexivity | lia].
Qed.

(* ------------------------------------------------------------------ *)
(** ** One packed byte *)

Ltac eight_bits f :=
  generalize (f 0), (f 1), (f 2), (f 3), (f 4), (f 5), (f 6), (f 7);
  intros [] [] [] [] [] [] [] [].

Ltac eight_cases j H :=
  assert (j = 0 \/ j = 1 \/ j = 2 \/ j = 3 \/ j = 4 \/ j = 5 \/ j = 6 \/ j = 7)
    as [-> | [-> | [-> | [-> | [-> | [-> | [-> | ->]]]]]]] by lia;
  clear H.

Lemma byte_of_range (bitorder : string) (f : Z -> bool) :
  0 <= byte_of bitorder f < 256.
Proof.
  unfold byte_of, physical.
  destruct (String.eqb bitorder "big"); cbn [fold_left];
    eight_bits f; vm_compute; split; congruence.
Qed.

Lemma byte_of_testbit (bitorder : string) (f : Z -> bool) (j : Z) :
  0 <= j < 8 ->
  Z.testbit (byte_of bitorder f) (physical bitorder j) = f j.
Proof.
  intros Hj. unfold byte_of, physical.
  destruct (String.eqb bitorder "big"); cbn [fold_left];
    eight_cases j Hj; eight_bits f; reflexivity.
Qed.

Lemma for_int_ext (body body' : Z -> Z -> result Z) :
  forall (count : nat) (j acc : Z),
    (forall t p, j <= t < j + Z.of_nat count -> body t p = body' t p) ->
    for_int count j body acc = for_int count j body' acc.
Proof.
  induction count as [|count IH]; intros j acc Hext.
  - reflexivity.
  - cbn [for_int]. rewrite (Hext j acc) by lia.
    destruct (body' j acc) as [acc' | e |]; cbn [bind]; try reflexivity.
    apply IH. intros t p Ht. apply Hext. lia.
Qed.

(** The loop of [cupy_packbits_big] over bits that are already known. *)
Lemma pack_loop_big (f : Z -> bool) :
  for_int 8 0
    (fun j packed =>
       Ok (to_uint8 (Z.lor packed (Z.shiftl (Z.b2z (f j)) (7 - j))))) 0
  = Ok (byte_of "big" f).
Proof.
  unfold byte_of. cbn [for_int bind fold_left physical String.eqb Ascii.eqb Bool.eqb].
  cbn [Z.add Pos.add Pos.succ].
  eight_bits f; reflexivity.
Qed.

Lemma pack_loop_little (f : Z -> bool) :
  for_int 8 0
    (fun j packed =>
       Ok (to_uint8 (Z.lor packed (Z.shiftl (Z.b2z (f j)) j)))) 0
  = Ok (byte_of "little" f).
Proof.
  unfold byte_of. cbn [for_int bind fold_left physical String.eqb Ascii.eqb Bool.eqb].
  cbn [Z.add Pos.add Pos.succ].
  eight_bits f; reflexivity.
Qed.

(** The guarded read of the pack kernels never leaves the buffer, and is
    the truth value of the element. *)
Lemma in_range_and_nonzero_truthy (myarray : ndarray) (k : Z) :
  0 <= k ->
  in_range_and_nonzero myarray (Z.of_nat (List.length (data myarray))) k
  = Ok (Z.b2z (truthy (data myarray) (Z.to_nat k))).
Proof.
  intros Hk. unfold in_range_and_nonzero, raw_index, truthy.
  destruct (Z.ltb_spec k (Z.of_nat (List.length (data myarray)))) as [Hlt | Hge].
  - destruct (Z.ltb_spec k 0); [lia|].
    destruct (nth_error (data myarray) (Z.to_nat k)) as [v|] eqn:Hnth.
    + cbn [bind]. destruct (v =? 0); reflexivity.
    + apply nth_error_None in Hnth. lia.
  - destruct (nth_error (data myarray) (Z.to_nat k)) as [v|] eqn:Hnth.
    + assert (Hsome : nth_error (data myarray) (Z.to_nat k) <> None) by congruence.
      apply nth_error_Some in Hsome. lia.
    + reflexivity.
Qed.

Lemma cupy_packbits_big_ok (myarray : ndarray) (i : Z) :
  0 <= i -> i * 8 + 7 < 2 ^ 31 ->
  cupy_packbits_big myarray (Z.of_nat (List.length (data myarray))) i 0
  = Ok (byte_of "big" (window (data myarray) i)).
Proof.
  intros Hi Hmax. unfold cupy_packbits_big.
  rewrite <- pack_loop_big.
  apply for_int_ext. intros t p Ht. cbv zeta.
  rewrite to_int32_id by lia.
  rewrite in_range_and_nonzero_truthy by lia.
  reflexivity.
Qed.

Lemma cupy_packbits_little_ok (myarray : ndarray) (i : Z) :
  0 <= i -> i * 8 + 7 < 2 ^ 31 ->
  cupy_packbits_little myarray (Z.of_nat (List.length (data myarray))) i 0
  = Ok (byte_of "little" (window (data myarray) i)).
Proof.
  intros Hi Hmax. unfold cupy_packbits_little.
  rewrite <- pack_loop_little.
  apply for_int_ext. intros t p Ht. cbv zeta.
  rewrite to_int32_id by lia.
  rewrite in_range_and_nonzero_truthy by lia.
  reflexivity.
Qed.

(* ------------------------------------------------------------------ *)
(** ** The pack kernels on a zero-initialised buffer *)

Lemma nth_error_repeat_inv {A} (a v : A) (m n : nat) :
  nth_error (repeat a m) n = Some v -> v = a.
Proof.
  intros H. apply nth_error_In in H. now apply repeat_spec in H.
Qed.

Lemma ceil8_bound (n i : Z) :
  0 <= n < 2 ^ 31 -> 0 <= i < ceil8 n -> i * 8 + 7 < 2 ^ 31.
Proof.
  unfold ceil8. intros Hn Hi.
  assert ((n + 7) / 8 < 2 ^ 28 + 1)
    by (apply Z.div_lt_upper_bound; lia).
  lia.
Qed.

Lemma pack_launch_ok (bitorder : string)
      (body : ndarray -> Z -> Z -> Z -> result Z) (myarray : ndarray) :
  (forall i, 0 <= i -> i * 8 + 7 < 2 ^ 31 ->
             body myarray (Z.of_nat (List.length (data myarray))) i 0
             = Ok (byte_of bitorder (window (data myarray) i))) ->
  Z.of_nat (List.length (data myarray)) < 2 ^ 31 ->
  ElementwiseKernel_pack body myarray
    (Z.of_nat (List.length (data myarray)))
    (zeros (ceil8 (Z.of_nat (List.length (data myarray)))) uint8)
  = Ok (mk_ndarray uint8
          [Z.to_nat (ceil8 (Z.of_nat (List.length (data myarray))))]
          (packed_bytes bitorder (data myarray))).
Proof.
  intros Hbody Hlen. unfold ElementwiseKernel_pack.
  set (n := Z.of_nat (List.length (data myarray))) in *.
  assert (Hn : 0 <= n) by (subst n; lia).
  rewrite to_int32_id by lia.
  rewrite (elementwise_ok _
             (fun i => byte_of bitorder (window (data myarray) i))).
  - unfold zeros, packed_bytes. cbn [dtype_of shape data].
    rewrite repeat_length. reflexivity.
  - intros k v Hk. cbn [zeros data] in Hk.
    pose proof (nth_error_repeat_inv _ _ _ _ Hk) as ->.
    assert (Hlt : (k < Z.to_nat (ceil8 n))%nat).
    { rewrite <- (repeat_length 0 (Z.to_nat (ceil8 n))).
      apply nth_error_Some. congruence. }
    apply Hbody; [lia|].
    apply (ceil8_bound n); lia.
Qed.

(* ------------------------------------------------------------------ *)
(** ** The unpack kernels *)

Lemma raw_index_nth (a : ndarray) (k : nat) :
  (k < List.length (data a))%nat ->
  raw_index a (Z.of_nat k) = Ok (nth k (data a) 0).
Proof.
  intros Hk. unfold raw_index.
  destruct (Z.ltb_spec (Z.of_nat k) 0); [lia|].
  rewrite Nat2Z.id.
  rewrite (nth_error_nth' (data a) 0 Hk). reflexivity.
Qed.

Lemma index_split (i : nat) :
  Z.quot (Z.of_nat i) 8 = Z.of_nat (i / 8)
  /\ Z.rem (Z.of_nat i) 8 = Z.of_nat (i mod 8).
Proof.
  destruct (quot_rem_nonneg (Z.of_nat i)) as [-> ->]; [lia|].
  split.
  - now rewrite (Nat2Z.inj_div i 8).
  - now rewrite (Nat2Z.inj_mod i 8).
Qed.

Lemma cupy_unpackbits_big_ok (myarray : ndarray) (i : nat) (old : Z) :
  (i < 8 * List.length (data myarray))%nat ->
  cupy_unpackbits_big myarray (Z.of_nat i) old
  = Ok (unpacked_bit "big" (data myarray) i).
Proof.
  intros Hi. unfold cupy_unpackbits_big, unpacked_bit.
  destruct (index_split i) as [-> ->].
  assert (Hq : (i / 8 < List.length (data myarray))%nat)
    by (apply Nat.Div0.div_lt_upper_bound; lia).
  assert (Hr : (i mod 8 < 8)%nat) by (apply Nat.mod_upper_bound; lia).
  rewrite raw_index_nth by exact Hq. cbn [bind].
  rewrite land_shiftr_1 by lia. reflexivity.
Qed.

Lemma cupy_unpackbits_little_ok (myarray : ndarray) (i : nat) (old : Z) :
  (i < 8 * List.length (data myarray))%nat ->
  cupy_unpackbits_little myarray (Z.of_nat i) old
  = Ok (unpacked_bit "little" (data myarray) i).
Proof.
  intros Hi. unfold cupy_unpackbits_little, unpacked_bit.
  destruct (index_split i) as [-> ->].
  assert (Hq : (i / 8 < List.length (data myarray))%nat)
    by (apply Nat.Div0.div_lt_upper_bound; lia).
  rewrite raw_index_nth by exact Hq. cbn [bind].
  rewrite land_shiftr_1 by lia. reflexivity.
Qed.

Lemma unpack_launch_ok (bitorder : string)
      (body : ndarray -> Z -> Z -> result Z) (myarray unpacked : ndarray) :
  (forall i old, (i < 8 * List.length (data myarray))%nat ->
                 body myarray (Z.of_nat i) old
                 = Ok (unpacked_bit bitorder (data myarray) i)) ->
  List.length (data unpacked) = (8 * List.length (data myarray))%nat ->
  ElementwiseKernel_unpack body myarray unpacked
  = Ok (mk_ndarray (dtype_of unpacked) (shape unpacked)
          (unpacked_bits bitorder (data myarray))).
Proof.
  intros Hbody Hlen. unfold ElementwiseKernel_unpack.
  rewrite (elementwise_ok _
             (fun i => unpacked_bit bitorder (data myarray) (Z.to_nat i))).
  - unfold unpacked_bits. rewrite Hlen. do 2 f_equal.
    apply map_ext. intros k. now rewrite Nat2Z.id.
  - intros k v Hk. rewrite Nat2Z.id. apply Hbody.
    rewrite <- Hlen. apply nth_error_Some. congruence.
Qed.

(* ------------------------------------------------------------------ *)
(** ** Round trip of the bytes *)

Lemma packed_bytes_length (bitorder : string) (d : list Z) :
  List.length (packed_bytes bitorder d)
  = Z.to_nat (ceil8 (Z.of_nat (List.length d))).
Proof.
  unfold packed_bytes. now rewrite length_map, length_seq.
Qed.

Lemma ceil8_nat (n : nat) :
  Z.to_nat (ceil8 (Z.of_nat n)) = ((n + 7) / 8)%nat.
Proof.
  unfold ceil8.
  replace (Z.of_nat n + 7) with (Z.of_nat (n + 7)) by lia.
  change 8 with (Z.of_nat 8).
  now rewrite <- Nat2Z.inj_div, Nat2Z.id.
Qed.

(** Every bit unpacked from the packed bytes is the truth value of the
    element it came from; positions past the end of the input read 0. *)
Lemma unpacked_bit_packed_bytes (bitorder : string) (d : list Z) (k : nat) :
  (k < 8 * List.length (packed_bytes bitorder d))%nat ->
  unpacked_bit bitorder (packed_bytes bitorder d) k = Z.b2z (truthy d k).
Proof.
  intros Hk. unfold unpacked_bit.
  assert (Hq : (k / 8 < List.length (packed_bytes bitorder d))%nat)
    by (apply Nat.Div0.div_lt_upper_bound; lia).
  assert (Hr : (k mod 8 < 8)%nat) by (apply Nat.mod_upper_bound; lia).
  rewrite packed_bytes_length in Hq.
  unfold packed_bytes.
  rewrite (nth_indep _ 0 (byte_of bitorder (window d (Z.of_nat 0))))
    by (rewrite length_map, length_seq; exact Hq).
  rewrite (map_nth (fun i => byte_of bitorder (window d (Z.of_nat i)))).
  rewrite seq_nth by exact Hq. cbn [Nat.add].
  rewrite byte_of_testbit by lia.
  unfold window. do 2 f_equal.
  pose proof (Nat.div_mod_eq k 8). lia.
Qed.


(* ------------------------------------------------------------------ *)
(** ** [unpackbits] *)

Lemma In_strs_big_little (s : string) :
  s = "big" \/ s = "little" -> In_strs (PyStr s) ["big"; "little"] = true.
Proof. intros [-> | ->]; reflexivity. Qed.

Lemma size_nat (a : ndarray) :
  well_formed a -> Z.to_nat (size a * 8) = (8 * List.length (data a))%nat.
Proof. unfold well_formed. intros <-. lia. Qed.

(** On a byte array and a recognised bit order, [unpackbits] returns the
    one-dimensional [uint8] array of all the bits, whatever the fresh
    buffer held. *)
Lemma unpackbits_ok (junk : nat -> Z) (myarray : ndarray) (bitorder : string) :
  dtype_of myarray = uint8 ->
  well_formed myarray ->
  bitorder = "big" \/ bitorder = "little" ->
  unpackbits junk myarray (PyStr bitorder)
  = Ok (mk_ndarray uint8 [(8 * List.length (data myarray))%nat]
          (unpacked_bits bitorder (data myarray))).
Proof.
  intros Hdt Hwf Hbo. unfold unpackbits.
  rewrite Hdt. cbn [dtype_eqb negb].
  rewrite (In_strs_big_little _ Hbo). cbn [negb].
  assert (Hlen : List.length (data (empty junk (size myarray * 8) uint8))
                 = (8 * List.length (data myarray))%nat).
  { unfold empty. cbn [data].
    now rewrite length_map, length_seq, size_nat. }
  destruct Hbo as [-> | ->]; cbn [_unpackbits_kernel dict_getitem eq_str
                                    String.eqb Ascii.eqb Bool.eqb bind].
  - rewrite (unpack_launch_ok "big") by
      (try exact Hlen; intros; now apply cupy_unpackbits_big_ok).
    unfold empty. cbn [dtype_of shape]. now rewrite size_nat.
  - rewrite (unpack_launch_ok "little") by
      (try exact Hlen; intros; now apply cupy_unpackbits_little_ok).
    unfold empty. cbn [dtype_of shape]. now rewrite size_nat.
Qed.

Lemma unpacked_bits_length (bitorder : string) (d : list Z) :
  List.length (unpacked_bits bitorder d) = (8 * List.length d)%nat.
Proof. unfold unpacked_bits. now rewrite length_map, length_seq. Qed.

Lemma unpacked_bits_nth (bitorder : string) (d : list Z) (i : nat) :
  (i < 8 * List.length d)%nat ->
  nth_error (unpacked_bits bitorder d) i = Some (unpacked_bit bitorder d i).
Proof. intros Hi. unfold unpacked_bits. now apply nth_error_map_seq. Qed.

(** The first check of [unpackbits] is on the element type. *)
Lemma unpackbits_rejects_type (junk : nat -> Z) (myarray : ndarray)
      (bitorder : pyval) :
  dtype_of myarray <> uint8 ->
  unpackbits junk myarray bitorder
  = Raise (TypeError "Expected an input array of unsigned byte data type").
Proof.
  intros Hdt. unfold unpackbits.
  destruct (dtype_of myarray); try reflexivity. congruence.
Qed.

(** The second check is on the bit order. *)
Lemma unpackbits_rejects_bitorder (junk : nat -> Z) (myarray : ndarray)
      (bitorder : pyval) :
  dtype_of myarray = uint8 ->
  In_strs bitorder ["big"; "little"] = false ->
  unpackbits junk myarray bitorder
  = Raise (ValueError "bitorder must be either 'big' or 'little'").
Proof.
  intros Hdt Hbo. unfold unpackbits.
  rewrite Hdt, Hbo. reflexivity.
Qed.

(* ------------------------------------------------------------------ *)
(** ** The body of [packbits] once [myarray] is bound *)

Lemma size_ravel (a : ndarray) :
  size (ravel a) = Z.of_nat (List.length (data a)).
Proof. unfold size, ravel. cbn [shape fold_right]. lia. Qed.

(** Run in a frame where [myarray] holds the input, the body validates,
    allocates [ceil(n / 8)] zero bytes and fills them with the packed
    bits. *)
Lemma packbits_body_bound_ok (myarray : ndarray) (axis : pyval)
      (bitorder : string) :
  char_in (kind (dtype_of myarray)) "biu" = true ->
  bitorder = "big" \/ bitorder = "little" ->
  Z.of_nat (List.length (data myarray)) < 2 ^ 31 ->
  packbits_body (frame_with_myarray myarray axis (PyStr bitorder))
  = Ok (mk_ndarray uint8
          [Z.to_nat (ceil8 (Z.of_nat (List.length (data myarray))))]
          (packed_bytes bitorder (data myarray))).
Proof.
  intros Hkind Hbo Hlen. unfold packbits_body, frame_with_myarray.
  cbn [l_myarray l_bitorder load_fast bind].
  rewrite Hkind. cbn [negb].
  rewrite (In_strs_big_little _ Hbo). cbn [negb].
  cbn [store_myarray store_packed_size store_packed
       l_myarray l_bitorder l_packed_size l_packed l_a l_axis load_fast bind].
  rewrite size_ravel. fold (ceil8 (Z.of_nat (List.length (data myarray)))).
  change (data myarray) with (data (ravel myarray)).
  destruct Hbo as [-> | ->]; cbn [_packbits_kernel dict_getitem eq_str
                                    String.eqb Ascii.eqb Bool.eqb bind].
  - apply (pack_launch_ok "big"); [|exact Hlen].
    intros i Hi Hmax. now apply cupy_packbits_big_ok.
  - apply (pack_launch_ok "little"); [|exact Hlen].
    intros i Hi Hmax. now apply cupy_packbits_little_ok.
Qed.

Lemma unpacked_bits_packed_bytes (bitorder : string) (d : list Z) :
  unpacked_bits bitorder (packed_bytes bitorder d)
  = truth_values d (8 * Z.to_nat (ceil8 (Z.of_nat (List.length d)))).
Proof.
  unfold unpacked_bits, truth_values.
  rewrite packed_bytes_length.
  apply map_ext_in. intros k Hk. apply in_seq in Hk.
  apply unpacked_bit_packed_bytes. rewrite packed_bytes_length. lia.
Qed.

Lemma roundtrip_with_myarray_bound (junk : nat -> Z) (myarray : ndarray)
      (axis : pyval) (bitorder : string) :
  char_in (kind (dtype_of myarray)) "biu" = true ->
  bitorder = "big" \/ bitorder = "little" ->
  Z.of_nat (List.length (data myarray)) < 2 ^ 31 ->
  (packed <- packbits_body (frame_with_myarray myarray axis (PyStr bitorder)) ;;
   unpackbits junk packed (PyStr bitorder))
  = Ok (mk_ndarray uint8
          [(8 * Z.to_nat (ceil8 (Z.of_nat (List.length (data myarray)))))%nat]
          (truth_values (data myarray)
             (8 * Z.to_nat (ceil8 (Z.of_nat (List.length (data myarray))))))).
Proof.
  intros Hkind Hbo Hlen.
  rewrite packbits_body_bound_ok by assumption. cbn [bind].
  rewrite unpackbits_ok; try assumption; try reflexivity.
  - cbn [data]. now rewrite packed_bytes_length, unpacked_bits_packed_bytes.
  - unfold well_formed, size. cbn [data shape fold_right].
    rewrite packed_bytes_length. lia.
Qed.


(* ------------------------------------------------------------------ *)
(** ** Row-major addressing *)

Lemma offset_in_bounds (shp idx : list nat) :
  in_bounds shp idx -> (offset shp idx < fold_right Nat.mul 1%nat shp)%nat.
Proof.
  unfold in_bounds. intros H.
  induction H as [|k n idx shp Hk _ IH]; cbn [offset fold_right].
  - lia.
  - nia.
Qed.

(* ------------------------------------------------------------------ *)
(** ** Properties of the entry points *)

(** C9. Every call of [packbits], whatever its arguments, ends in the
    unbound-name error for [myarray], an instance of [NameError]: the
    parameter is bound under the name [a], and the first statement of the
    body reads the local [myarray], which nothing has assigned yet.  The
    error is neither the type error nor the bit-order error of the
    validation, and no call returns a packed array. *)
Theorem packbits_always_unbound (a : ndarray) (axis bitorder : pyval) :
  l_a (entry_frame a axis bitorder) = a
  /\ l_myarray (entry_frame a axis bitorder) = None
  /\ packbits a axis bitorder = Raise (UnboundLocalError "myarray")
  /\ isinstance_NameError (UnboundLocalError "myarray") = true
  /\ isinstance_TypeError (UnboundLocalError "myarray") = false
  /\ isinstance_ValueError (UnboundLocalError "myarray") = false
  /\ (forall out, packbits a axis bitorder <> Ok out).
Proof.
  repeat split; intros; discriminate.
Qed.

(** C1. At the eight booleans [1,0,0,0,0,0,0,0], for each bit order, packing
    through [packbits] raises the unbound-name error, so unpacking its
    result does not give the truth values; the body run with [myarray]
    bound to the same input does round-trip. *)
Theorem roundtrip_multiple_of_8_failing_input :
  let x := array1 bool_ [1; 0; 0; 0; 0; 0; 0; 0] in
  (forall junk bitorder,
      unpack_of_pack junk x default_axis bitorder
      = Raise (UnboundLocalError "myarray"))
  /\ (forall junk,
         (packed <- packbits_body (frame_with_myarray x default_axis (PyStr "big")) ;;
          unpackbits junk packed (PyStr "big"))
         = Ok (array1 uint8 [1; 0; 0; 0; 0; 0; 0; 0]))
  /\ (forall junk,
         (packed <- packbits_body (frame_with_myarray x default_axis (PyStr "little")) ;;
          unpackbits junk packed (PyStr "little"))
         = Ok (array1 uint8 [1; 0; 0; 0; 0; 0; 0; 0])).
Proof.
  repeat split; try reflexivity; intros junk;
    (rewrite roundtrip_with_myarray_bound;
     [reflexivity | reflexivity | auto | cbn; lia]).
Qed.

(** C2. At [1,0,0,0,0,0,0,0], [packbits] raises the unbound-name error for
    both bit orders instead of returning 128 (big) or 1 (little); the body
    run with [myarray] bound returns exactly those bytes. *)
Theorem pack_bit_layout_failing_input :
  let x := array1 bool_ [1; 0; 0; 0; 0; 0; 0; 0] in
  packbits x default_axis (PyStr "big") = Raise (UnboundLocalError "myarray")
  /\ packbits x default_axis (PyStr "little") = Raise (UnboundLocalError "myarray")
  /\ packbits_body (frame_with_myarray x default_axis (PyStr "big"))
     = Ok (array1 uint8 [128])
  /\ packbits_body (frame_with_myarray x default_axis (PyStr "little"))
     = Ok (array1 uint8 [1]).
Proof.
  repeat split; reflexivity.
Qed.

(** C4. At a ten-element boolean input, [packbits] raises the unbound-name
    error instead of returning [ceil(10 / 8) = 2] bytes; the body run with
    [myarray] bound returns two bytes. *)
Theorem pack_length_failing_input :
  let x := array1 bool_ [1; 1; 0; 1; 0; 0; 1; 0; 1; 1] in
  (forall bitorder,
      packbits x default_axis bitorder = Raise (UnboundLocalError "myarray"))
  /\ ceil8 (Z.of_nat (List.length (data x))) = 2
  /\ packbits_body (frame_with_myarray x default_axis (PyStr "big"))
     = Ok (array1 uint8 [210; 192])
  /\ packbits_body (frame_with_myarray x default_axis (PyStr "little"))
     = Ok (array1 uint8 [75; 3]).
Proof.
  repeat split; reflexivity.
Qed.

(** C5. At a ten-element boolean input, packing through [packbits] raises
    the unbound-name error for both bit orders, so there is no padded byte
    and nothing to unpack; the body run with [myarray] bound gives the ten
    truth values followed by six zeros. *)
Theorem roundtrip_padding_failing_input :
  let x := array1 bool_ [1; 1; 0; 1; 0; 0; 1; 0; 1; 1] in
  (forall junk bitorder,
      unpack_of_pack junk x default_axis bitorder
      = Raise (UnboundLocalError "myarray"))
  /\ (forall junk,
         (packed <- packbits_body (frame_with_myarray x default_axis (PyStr "big")) ;;
          unpackbits junk packed (PyStr "big"))
         = Ok (array1 uint8 [1; 1; 0; 1; 0; 0; 1; 0; 1; 1; 0; 0; 0; 0; 0; 0]))
  /\ (forall junk,
         (packed <- packbits_body (frame_with_myarray x default_axis (PyStr "little")) ;;
          unpackbits junk packed (PyStr "little"))
         = Ok (array1 uint8 [1; 1; 0; 1; 0; 0; 1; 0; 1; 1; 0; 0; 0; 0; 0; 0])).
Proof.
  repeat split; try reflexivity; intros junk;
    (rewrite roundtrip_with_myarray_bound;
     [reflexivity | reflexivity | auto | cbn; lia]).
Qed.

(** C6. At a [float64] input, [packbits] raises the unbound-name error, which
    is not a type error; the body run with [myarray] bound raises the type
    error, and [unpackbits] raises it for every input that is not
    [uint8]. *)
Theorem pack_type_check_failing_input :
  let x := array1 float64 [4609434218613702656] in
  (forall bitorder,
      packbits x default_axis bitorder = Raise (UnboundLocalError "myarray"))
  /\ isinstance_TypeError (UnboundLocalError "myarray") = false
  /\ (forall bitorder,
         packbits_body (frame_with_myarray x default_axis bitorder)
         = Raise (TypeError "Expected an input array of integer or boolean data type"))
  /\ (forall junk bitorder,
         unpackbits junk x bitorder
         = Raise (TypeError "Expected an input array of unsigned byte data type")).
Proof.
  repeat split; reflexivity.
Qed.

(** C8. At the empty boolean input, [packbits] raises the unbound-name error
    for both bit orders instead of returning an empty array; the body run
    with [myarray] bound returns the empty [uint8] array. *)
Theorem pack_empty_failing_input :
  let x := array1 bool_ [] in
  packbits x default_axis (PyStr "big") = Raise (UnboundLocalError "myarray")
  /\ packbits x default_axis (PyStr "little") = Raise (UnboundLocalError "myarray")
  /\ packbits_body (frame_with_myarray x default_axis (PyStr "big"))
     = Ok (array1 uint8 [])
  /\ packbits_body (frame_with_myarray x default_axis (PyStr "little"))
     = Ok (array1 uint8 []).
Proof.
  repeat split; reflexivity.
Qed.


(** C3. For every [uint8] array of [m] bytes and each recognised bit order,
    [unpackbits] returns an array whose element [i], for [i < 8 * m], is the
    bit at position [7 - i mod 8] (big) or [i mod 8] (little) of byte
    [i / 8], a value 0 or 1, and whose element type is [uint8]. *)
Theorem unpackbits_element (junk : nat -> Z) (myarray : ndarray)
        (bitorder : string) (i : nat) :
  dtype_of myarray = uint8 ->
  well_formed myarray ->
  bitorder = "big" \/ bitorder = "little" ->
  (i < 8 * List.length (data myarray))%nat ->
  exists out bit,
    unpackbits junk myarray (PyStr bitorder) = Ok out
    /\ dtype_of out = uint8
    /\ nth_error (data out) i = Some bit
    /\ (bit = 0 \/ bit = 1)
    /\ bit = Z.b2z (Z.testbit (nth (i / 8) (data myarray) 0)
                              (if String.eqb bitorder "big"
                               then 7 - Z.of_nat (i mod 8)
                               else Z.of_nat (i mod 8))).
Proof.
  intros Hdt Hwf Hbo Hi.
  eexists. exists (unpacked_bit bitorder (data myarray) i).
  split; [now apply unpackbits_ok|].
  cbn [dtype_of data]. repeat split.
  - now apply unpacked_bits_nth.
  - apply b2z_bit.
Qed.

(** C7. For every [uint8] array and every bit order outside big and little,
    whatever Python value it is, [unpackbits] raises the bit-order error,
    whatever a fresh buffer would have held: no array is returned. *)
Theorem unpackbits_bad_bitorder (junk : nat -> Z) (myarray : ndarray)
        (bitorder : pyval) :
  dtype_of myarray = uint8 ->
  In_strs bitorder ["big"; "little"] = false ->
  unpackbits junk myarray bitorder
  = Raise (ValueError "bitorder must be either 'big' or 'little'")
  /\ raises_ValueError (unpackbits junk myarray bitorder)
  /\ (forall out, unpackbits junk myarray bitorder <> Ok out).
Proof.
  intros Hdt Hbo.
  rewrite (unpackbits_rejects_bitorder junk myarray bitorder Hdt Hbo).
  repeat split.
  - eexists. split; reflexivity.
  - discriminate.
Qed.

(** C10. For every [uint8] array of any shape and each recognised bit
    order, [unpackbits] returns a one-dimensional [uint8] array of eight
    times as many elements, each 0 or 1; the eight elements from position
    [8 * p] on are the bits of the byte at row-major position [p]; the
    result does not depend on what the fresh buffer held. *)
Theorem unpackbits_any_shape (junk : nat -> Z) (myarray : ndarray)
        (bitorder : string) :
  dtype_of myarray = uint8 ->
  well_formed myarray ->
  bitorder = "big" \/ bitorder = "little" ->
  exists out,
    unpackbits junk myarray (PyStr bitorder) = Ok out
    /\ dtype_of out = uint8
    /\ shape out = [Z.to_nat (8 * size myarray)]
    /\ Z.of_nat (List.length (data out)) = 8 * size myarray
    /\ Forall (fun v => v = 0 \/ v = 1) (data out)
    /\ (forall idx j,
           in_bounds (shape myarray) idx -> (j < 8)%nat ->
           nth_error (data out) (8 * offset (shape myarray) idx + j)
           = Some (Z.b2z (Z.testbit (getitem myarray idx)
                                    (physical bitorder (Z.of_nat j)))))
    /\ (forall junk', unpackbits junk' myarray (PyStr bitorder) = Ok out).
Proof.
  intros Hdt Hwf Hbo.
  eexists. split; [now apply unpackbits_ok|].
  cbn [dtype_of shape data].
  pose proof Hwf as Hsize. unfold well_formed in Hsize.
  repeat split.
  - f_equal. lia.
  - rewrite unpacked_bits_length. lia.
  - apply Forall_forall. intros v Hv.
    unfold unpacked_bits in Hv. apply in_map_iff in Hv.
    destruct Hv as [k [<- _]]. apply b2z_bit.
  - intros idx j Hidx Hj.
    pose proof (offset_in_bounds _ _ Hidx) as Hoff.
    assert (Hlen : (offset (shape myarray) idx < List.length (data myarray))%nat).
    { unfold size in Hsize. lia. }
    rewrite unpacked_bits_nth by lia.
    unfold unpacked_bit, getitem.
    replace ((8 * offset (shape myarray) idx + j) / 8)%nat
      with (offset (shape myarray) idx)
      by (apply (Nat.div_unique _ 8 _ j); lia).
    replace ((8 * offset (shape myarray) idx + j) mod 8)%nat with j
      by (apply (Nat.mod_unique _ 8 (offset (shape myarray) idx) j); lia).
    reflexivity.
  - intros junk'. now apply unpackbits_ok.
Qed.

(* ------------------------------------------------------------------ *)
(** ** Instances and counterexamples *)

(** [unpackbits] on the byte [0b10110000], big order, at output index 2. *)
Lemma unpackbits_element_witness :
  exists out bit,
    unpackbits zero_filled (array1 uint8 [176]) (PyStr "big") = Ok out
    /\ dtype_of out = uint8
    /\ nth_error (data out) 2 = Some bit
    /\ (bit = 0 \/ bit = 1)
    /\ bit = Z.b2z (Z.testbit 176 5).
Proof.
  apply (unpackbits_element zero_filled (array1 uint8 [176]) "big" 2).
  - reflexivity.
  - reflexivity.
  - left. reflexivity.
  - simpl. lia.
Defined.

(** A caller that wants the bits in another element type, here booleans,
    does not get them in that type: the signature has no such parameter
    and the output buffer is always allocated as [uint8]. *)
Lemma unpackbits_output_type_not_chosen :
  ~ (forall t : dtype,
        returns_dtype t
          (unpackbits zero_filled (array1 uint8 [176]) (PyStr "big"))).
Proof.
  intros H. destruct (H bool_) as [out [Hout Hdt]].
  vm_compute in Hout. injection Hout as <-. discriminate Hdt.
Qed.

(** [unpackbits] on one byte with the bit order ['middle']. *)
Lemma unpackbits_bad_bitorder_witness :
  unpackbits zero_filled (array1 uint8 [5]) (PyStr "middle")
  = Raise (ValueError "bitorder must be either 'big' or 'little'")
  /\ raises_ValueError (unpackbits zero_filled (array1 uint8 [5]) (PyStr "middle"))
  /\ (forall out, unpackbits zero_filled (array1 uint8 [5]) (PyStr "middle") <> Ok out).
Proof.
  apply (unpackbits_bad_bitorder zero_filled (array1 uint8 [5]) (PyStr "middle")).
  - reflexivity.
  - reflexivity.
Defined.

(** On an [int32] array, an unrecognised bit order is not what is reported:
    the element type is checked first and the call raises the type error. *)
Lemma unpackbits_bad_bitorder_on_int32 :
  In_strs (PyStr "middle") ["big"; "little"] = false
  /\ unpackbits zero_filled (array1 int32 [1]) (PyStr "middle")
     = Raise (TypeError "Expected an input array of unsigned byte data type")
  /\ ~ raises_ValueError
       (unpackbits zero_filled (array1 int32 [1]) (PyStr "middle")).
Proof.
  split; [reflexivity|]. split; [reflexivity|].
  intros [e [He Hv]]. vm_compute in He. injection He as <-. discriminate Hv.
Qed.

(** [unpackbits] on a 2 x 2 array, little order. *)
Lemma unpackbits_any_shape_witness :
  exists out,
    unpackbits zero_filled (mk_ndarray uint8 [2%nat; 2%nat] [176; 5; 255; 0])
               (PyStr "little") = Ok out
    /\ dtype_of out = uint8
    /\ shape out = [32%nat]
    /\ Z.of_nat (List.length (data out)) = 32
    /\ Forall (fun v => v = 0 \/ v = 1) (data out)
    /\ (forall idx j,
           in_bounds [2%nat; 2%nat] idx -> (j < 8)%nat ->
           nth_error (data out) (8 * offset [2%nat; 2%nat] idx + j)
           = Some (Z.b2z (Z.testbit
                            (getitem (mk_ndarray uint8 [2%nat; 2%nat] [176; 5; 255; 0]) idx)
                            (physical "little" (Z.of_nat j)))))
    /\ (forall junk',
           unpackbits junk' (mk_ndarray uint8 [2%nat; 2%nat] [176; 5; 255; 0])
                      (PyStr "little") = Ok out).
Proof.
  apply (unpackbits_any_shape zero_filled
           (mk_ndarray uint8 [2%nat; 2%nat] [176; 5; 255; 0]) "little").
  - reflexivity.
  - reflexivity.
  - right. reflexivity.
Defined.

(** The two unpacking examples of the specification. *)
Example unpackbits_big_example (junk : nat -> Z) :
  unpackbits junk (array1 uint8 [176]) (PyStr "big")
  = Ok (array1 uint8 [1; 0; 1; 1; 0; 0; 0; 0]).
Proof.
  rewrite unpackbits_ok; [reflexivity | reflexivity | reflexivity | auto].
Qed.

Example unpackbits_little_example (junk : nat -> Z) :
  unpackbits junk (array1 uint8 [5]) (PyStr "little")
  = Ok (array1 uint8 [1; 0; 1; 0; 0; 0; 0; 0]).
Proof.
  rewrite unpackbits_ok; [reflexivity | reflexivity | reflexivity | auto].
Qed.

(* ------------------------------------------------------------------ *)
(** ** The kernels called on their own *)












(** The kernel call of [packbits], on a buffer of [ceil(n / 8)] zero bytes. *)
Lemma launch_packbits_kernel_zeros (bitorder : string) (myarray : ndarray) :
  bitorder = "big" \/ bitorder = "little" ->
  well_formed myarray ->
  size myarray < 2 ^ 31 ->
  launch_packbits_kernel (PyStr bitorder) myarray (size myarray)
    (zeros ((size myarray + 7) / 8) uint8)
  = Ok (mk_ndarray uint8
          [Z.to_nat (ceil8 (Z.of_nat (List.length (data myarray))))]
          (packed_bytes bitorder (data myarray))).
Proof.
  intros Hbo Hwf Hlen. unfold well_formed in Hwf. rewrite <- Hwf in *.
  fold (ceil8 (Z.of_nat (List.length (data myarray)))).
  unfold launch_packbits_kernel.
  destruct Hbo as [-> | ->];
    cbn [_packbits_kernel dict_getitem eq_str String.eqb Ascii.eqb Bool.eqb bind].
  - apply (pack_launch_ok "big"); [|exact Hlen].
    intros i Hi Hmax. now apply cupy_packbits_big_ok.
  - apply (pack_launch_ok "little"); [|exact Hlen].
    intros i Hi Hmax. now apply cupy_packbits_little_ok.
Qed.




Lemma testbit_byte_high (a n : Z) :
  0 <= a < 256 -> 8 <= n -> Z.testbit a n = false.
Proof.
  intros Ha Hn.
  destruct (Z.eq_dec a 0) as [-> | Hnz]; [apply Z.bits_0|].
  apply Z.bits_above_log2; [lia|].
  assert (Z.log2 a < 8) by (apply Z.log2_lt_pow2; lia). lia.
Qed.

(** A byte is determined by its bits at the eight physical positions. *)
Lemma byte_of_testbits (bitorder : string) (b : Z) :
  0 <= b < 256 ->
  byte_of bitorder (fun j => Z.testbit b (physical bitorder j)) = b.
Proof.
  intros Hb. apply Z.bits_inj'. intros n Hn.
  destruct (Z.lt_ge_cases n 8) as [Hlt | Hge].
  - assert (Hphys : exists j, 0 <= j < 8 /\ physical bitorder j = n).
    { unfold physical. destruct (String.eqb bitorder "big").
      - exists (7 - n). lia.
      - exists n. lia. }
    destruct Hphys as [j [Hj <-]].
    now rewrite byte_of_testbit.
  - rewrite !testbit_byte_high; auto using byte_of_range.
Qed.

Lemma byte_of_ext (bitorder : string) (f g : Z -> bool) :
  (forall j, 0 <= j < 8 -> f j = g j) ->
  byte_of bitorder f = byte_of bitorder g.
Proof.
  intros Hfg. unfold byte_of. cbn [fold_left].
  rewrite !Hfg by lia. reflexivity.
Qed.

Lemma window_unpacked_bits (bitorder : string) (d : list Z) (i : nat) (j : Z) :
  (i < List.length d)%nat -> 0 <= j < 8 ->
  window (unpacked_bits bitorder d) (Z.of_nat i) j
  = Z.testbit (nth i d 0) (physical bitorder j).
Proof.
  intros Hi Hj. unfold window, truthy.
  replace (Z.to_nat (Z.of_nat i * 8 + j)) with (8 * i + Z.to_nat j)%nat by lia.
  rewrite unpacked_bits_nth by lia.
  unfold unpacked_bit.
  replace ((8 * i + Z.to_nat j) / 8)%nat with i
    by (apply (Nat.div_unique _ 8 _ (Z.to_nat j)); lia).
  replace ((8 * i + Z.to_nat j) mod 8)%nat with (Z.to_nat j)
    by (apply (Nat.mod_unique _ 8 i (Z.to_nat j)); lia).
  rewrite Z2Nat.id by lia.
  now destruct (Z.testbit (nth i d 0) (physical bitorder j)).
Qed.

Lemma ceil8_times_8 (n : nat) :
  Z.to_nat (ceil8 (Z.of_nat (8 * n))) = n.
Proof.
  unfold ceil8.
  replace (Z.of_nat (8 * n) + 7) with (7 + Z.of_nat n * 8) by lia.
  rewrite Z.div_add by lia.
  change (7 / 8) with 0. lia.
Qed.

(** Packing the unpacked bits of a byte buffer gives the bytes back. *)
Lemma packed_bytes_unpacked_bits (bitorder : string) (d : list Z) :
  all_bytes d ->
  packed_bytes bitorder (unpacked_bits bitorder d) = d.
Proof.
  intros Hbytes.
  apply (nth_ext _ _ 0 0).
  - now rewrite packed_bytes_length, unpacked_bits_length, ceil8_times_8.
  - intros i Hi.
    rewrite packed_bytes_length, unpacked_bits_length, ceil8_times_8 in Hi.
    unfold packed_bytes.
    rewrite unpacked_bits_length, ceil8_times_8.
    rewrite (nth_indep _ 0 (byte_of bitorder
                              (window (unpacked_bits bitorder d) (Z.of_nat 0))))
      by (now rewrite length_map, length_seq).
    rewrite (map_nth (fun i => byte_of bitorder
                                 (window (unpacked_bits bitorder d) (Z.of_nat i)))).
    rewrite seq_nth by exact Hi. cbn [Nat.add].
    rewrite (byte_of_ext bitorder _
               (fun j => Z.testbit (nth i d 0) (physical bitorder j)))
      by (intros j Hj; now apply window_unpacked_bits).
    apply byte_of_testbits.
    apply (proj1 (Forall_forall _ _) Hbytes). now apply nth_In.
Qed.

(** X4. Packing, with the same bit order, the bits that [unpackbits]
    returned for a byte array gives the bytes back, as a one-dimensional
    [uint8] array, for any byte array of fewer than 2^28 elements. *)
Theorem unpackbits_then_packbits_kernel (junk : nat -> Z) (bitorder : string)
        (myarray : ndarray) :
  bitorder = "big" \/ bitorder = "little" ->
  dtype_of myarray = uint8 ->
  well_formed myarray ->
  all_bytes (data myarray) ->
  8 * size myarray < 2 ^ 31 ->
  (unpacked <- unpackbits junk myarray (PyStr bitorder) ;;
   launch_packbits_kernel (PyStr bitorder) unpacked (size unpacked)
     (zeros ((size unpacked + 7) / 8) uint8))
  = Ok (mk_ndarray uint8 [List.length (data myarray)] (data myarray)).
Proof.
  intros Hbo Hdt Hwf Hbytes Hlen.
  rewrite unpackbits_ok by assumption. cbn [bind].
  pose proof Hwf as Hsize. unfold well_formed in Hsize.
  rewrite launch_packbits_kernel_zeros; try assumption.
  - cbn [data]. rewrite unpacked_bits_length, ceil8_times_8.
    now rewrite packed_bytes_unpacked_bits.
  - unfold well_formed, size. cbn [data shape fold_right].
    rewrite unpacked_bits_length. lia.
  - unfold size. cbn [shape fold_right]. lia.
Qed.

(* ------------------------------------------------------------------ *)
(** ** Outcomes of [unpackbits] *)

Lemma In_strs_big_little_inv (bitorder : pyval) :
  In_strs bitorder ["big"; "little"] = true ->
  exists s, bitorder = PyStr s /\ (s = "big" \/ s = "little").
Proof.
  destruct bitorder as [| b | z | s]; try discriminate.
  unfold In_strs. cbn [existsb eq_str]. intros H.
  exists s. split; [reflexivity|].
  destruct (String.eqb_spec s "big") as [Hbig | _]; [now left|].
  destruct (String.eqb_spec s "little") as [Hlittle | _]; [now right|].
  discriminate H.
Qed.

(** X5. On any array whose buffer matches its shape, [unpackbits] ends in
    exactly one of three ways, decided in this order: the type error when
    the element type is not [uint8], whatever the bit order; the bit-order
    error when the bit order is not the string big or little; otherwise an
    array of [8 * size] elements.  It never fails on the kernel table and
    never reads outside the input. *)
Theorem unpackbits_outcome (junk : nat -> Z) (myarray : ndarray)
        (bitorder : pyval) :
  well_formed myarray ->
  (dtype_of myarray <> uint8 ->
   unpackbits junk myarray bitorder
   = Raise (TypeError "Expected an input array of unsigned byte data type"))
  /\ (dtype_of myarray = uint8 ->
      In_strs bitorder ["big"; "little"] = false ->
      unpackbits junk myarray bitorder
      = Raise (ValueError "bitorder must be either 'big' or 'little'"))
  /\ (dtype_of myarray = uint8 ->
      In_strs bitorder ["big"; "little"] = true ->
      exists out,
        unpackbits junk myarray bitorder = Ok out
        /\ Z.of_nat (List.length (data out)) = 8 * size myarray)
  /\ unpackbits junk myarray bitorder <> Undefined
  /\ (forall key, unpackbits junk myarray bitorder <> Raise (KeyError key)).
Proof.
  intros Hwf.
  assert (Hok : dtype_of myarray = uint8 ->
                In_strs bitorder ["big"; "little"] = true ->
                exists out,
                  unpackbits junk myarray bitorder = Ok out
                  /\ Z.of_nat (List.length (data out)) = 8 * size myarray).
  { intros Hdt Hin.
    destruct (In_strs_big_little_inv _ Hin) as [s [-> Hs]].
    eexists. split; [now apply unpackbits_ok|].
    cbn [data]. rewrite unpacked_bits_length.
    unfold well_formed in Hwf. lia. }
  split; [now apply unpackbits_rejects_type|].
  split; [now apply unpackbits_rejects_bitorder|].
  split; [exact Hok|].
  assert (Hcases : dtype_of myarray = uint8 \/ dtype_of myarray <> uint8)
    by (destruct (dtype_of myarray); (now left) || (right; discriminate)).
  destruct Hcases as [Hdt | Hdt].
  - destruct (In_strs bitorder ["big"; "little"]) eqn:Hin.
    + destruct (Hok Hdt eq_refl) as [out [-> _]].
      split; [|intros key]; discriminate.
    + rewrite (unpackbits_rejects_bitorder junk _ _ Hdt Hin).
      split; [|intros key]; discriminate.
  - rewrite (unpackbits_rejects_type junk _ bitorder Hdt).
    split; [|intros key]; discriminate.
Qed.

(** X6. The two bit orders of [unpackbits] mirror each other inside every
    group of eight: element [8 * i + j] of the big-order result is element
    [8 * i + (7 - j)] of the little-order result. *)
Theorem unpackbits_big_little_mirror (junk junk' : nat -> Z)
        (myarray : ndarray) :
  dtype_of myarray = uint8 ->
  well_formed myarray ->
  exists big little,
    unpackbits junk myarray (PyStr "big") = Ok big
    /\ unpackbits junk' myarray (PyStr "little") = Ok little
    /\ (forall i j : nat,
           (i < List.length (data myarray))%nat -> (j < 8)%nat ->
           exists bit,
             nth_error (data big) (8 * i + j) = Some bit
             /\ nth_error (data little) (8 * i + (7 - j)) = Some bit).
Proof.
  intros Hdt Hwf.
  do 2 eexists.
  split; [apply unpackbits_ok; auto|].
  split; [apply unpackbits_ok; auto|].
  cbn [data]. intros i j Hi Hj.
  exists (unpacked_bit "big" (data myarray) (8 * i + j)).
  rewrite !unpacked_bits_nth by lia. split; [reflexivity|].
  unfold unpacked_bit, physical. cbn [String.eqb Ascii.eqb Bool.eqb].
  replace ((8 * i + j) / 8)%nat with i
    by (apply (Nat.div_unique _ 8 _ j); lia).
  replace ((8 * i + j) mod 8)%nat with j
    by (apply (Nat.mod_unique _ 8 i j); lia).
  replace ((8 * i + (7 - j)) / 8)%nat with i
    by (apply (Nat.div_unique _ 8 _ (7 - j)%nat); lia).
  replace ((8 * i + (7 - j)) mod 8)%nat with (7 - j)%nat
    by (apply (Nat.mod_unique _ 8 i (7 - j)%nat); lia).
  do 3 f_equal. lia.
Qed.

(* ------------------------------------------------------------------ *)
(** ** What the pack kernels look at *)



Lemma array1_well_formed (t : dtype) (d : list Z) : well_formed (array1 t d).
Proof. unfold well_formed, size, array1. cbn [data shape fold_right]. lia. Qed.

Lemma size_array1 (t : dtype) (d : list Z) :
  size (array1 t d) = Z.of_nat (List.length d).
Proof. unfold size, array1. cbn [shape fold_right]. lia. Qed.


(* ------------------------------------------------------------------ *)
(** ** The unpack kernels on any output buffer *)


(* ------------------------------------------------------------------ *)
(** ** The kernel tables and the accepted bit orders *)







(* ------------------------------------------------------------------ *)
(** ** Packing and unpacking in pieces *)

Local Open Scope list_scope.
Local Open Scope Z_scope.

Lemma unpacked_bits_nth_default (bitorder : string) (d : list Z) (i : nat) :
  (i < 8 * List.length d)%nat ->
  nth i (unpacked_bits bitorder d) 0 = unpacked_bit bitorder d i.
Proof.
  intros Hi. apply nth_error_nth. now apply unpacked_bits_nth.
Qed.

Lemma unpacked_bits_app (bitorder : string) (d1 d2 : list Z) :
  unpacked_bits bitorder (d1 ++ d2)
  = unpacked_bits bitorder d1 ++ unpacked_bits bitorder d2.
Proof.
  apply (nth_ext _ _ 0 0).
  - rewrite length_app, !unpacked_bits_length, length_app. lia.
  - intros i Hi. rewrite unpacked_bits_length, length_app in Hi.
    rewrite unpacked_bits_nth_default by (rewrite length_app; lia).
    destruct (Nat.lt_ge_cases i (8 * List.length d1)) as [Hlt | Hge].
    + rewrite app_nth1 by (rewrite unpacked_bits_length; lia).
      rewrite unpacked_bits_nth_default by lia.
      unfold unpacked_bit.
      rewrite app_nth1 by (apply Nat.Div0.div_lt_upper_bound; lia).
      reflexivity.
    + rewrite app_nth2 by (rewrite unpacked_bits_length; lia).
      rewrite unpacked_bits_length.
      rewrite unpacked_bits_nth_default by lia.
      unfold unpacked_bit.
      assert (Hi' : i = ((i - 8 * List.length d1) + List.length d1 * 8)%nat)
        by lia.
      rewrite Hi' at 1 2.
      rewrite Nat.div_add, Nat.Div0.mod_add by lia.
      rewrite app_nth2 by lia.
      do 3 f_equal. lia.
Qed.

(** X10. Unpacking a concatenation is the concatenation of the unpackings:
    bytes can be unpacked in pieces, in either bit order. *)
Theorem unpackbits_concatenation (junk : nat -> Z) (bitorder : string)
        (d1 d2 : list Z) :
  bitorder = "big" \/ bitorder = "little" ->
  exists u1 u2,
    unpackbits junk (array1 uint8 d1) (PyStr bitorder) = Ok (array1 uint8 u1)
    /\ unpackbits junk (array1 uint8 d2) (PyStr bitorder) = Ok (array1 uint8 u2)
    /\ unpackbits junk (array1 uint8 (d1 ++ d2)) (PyStr bitorder)
       = Ok (array1 uint8 (u1 ++ u2)).
Proof.
  intros Hbo.
  exists (unpacked_bits bitorder d1), (unpacked_bits bitorder d2).
  rewrite !unpackbits_ok by (auto using array1_well_formed).
  unfold array1. cbn [data].
  rewrite <- unpacked_bits_app, !unpacked_bits_length.
  repeat split.
Qed.

Lemma ceil8_add_multiple (m n : nat) :
  Z.to_nat (ceil8 (Z.of_nat (8 * m + n)))
  = (m + Z.to_nat (ceil8 (Z.of_nat n)))%nat.
Proof.
  unfold ceil8.
  replace (Z.of_nat (8 * m + n) + 7) with (Z.of_nat n + 7 + Z.of_nat m * 8) by lia.
  rewrite Z.div_add by lia.
  assert (0 <= (Z.of_nat n + 7) / 8) by (apply Z.div_pos; lia).
  lia.
Qed.

Lemma packed_bytes_nth_default (bitorder : string) (d : list Z) (i : nat) :
  (i < Z.to_nat (ceil8 (Z.of_nat (List.length d))))%nat ->
  nth i (packed_bytes bitorder d) 0
  = byte_of bitorder (window d (Z.of_nat i)).
Proof.
  intros Hi. apply nth_error_nth.
  unfold packed_bytes. now rewrite nth_error_map_seq.
Qed.

Lemma packed_bytes_app (bitorder : string) (d1 d2 : list Z) (m : nat) :
  List.length d1 = (8 * m)%nat ->
  packed_bytes bitorder (d1 ++ d2)
  = packed_bytes bitorder d1 ++ packed_bytes bitorder d2.
Proof.
  intros Hm.
  assert (Hl1 : List.length (packed_bytes bitorder d1) = m)
    by (now rewrite packed_bytes_length, Hm, ceil8_times_8).
  assert (Hl : List.length (packed_bytes bitorder (d1 ++ d2))
               = (m + Z.to_nat (ceil8 (Z.of_nat (List.length d2))))%nat)
    by (now rewrite packed_bytes_length, length_app, Hm, ceil8_add_multiple).
  apply (nth_ext _ _ 0 0).
  - rewrite length_app, Hl, Hl1, packed_bytes_length. reflexivity.
  - intros i Hi. rewrite Hl in Hi.
    rewrite packed_bytes_nth_default
      by (now rewrite length_app, Hm, ceil8_add_multiple).
    destruct (Nat.lt_ge_cases i m) as [Hlt | Hge].
    + rewrite app_nth1 by lia.
      rewrite packed_bytes_nth_default by (rewrite Hm, ceil8_times_8; lia).
      apply byte_of_ext. intros j Hj. unfold window, truthy.
      rewrite nth_error_app1 by lia. reflexivity.
    + rewrite app_nth2 by lia. rewrite Hl1.
      rewrite packed_bytes_nth_default by lia.
      apply byte_of_ext. intros j Hj. unfold window, truthy.
      rewrite nth_error_app2 by lia.
      replace (Z.to_nat (Z.of_nat i * 8 + j) - List.length d1)%nat
        with (Z.to_nat (Z.of_nat (i - m) * 8 + j)) by lia.
      reflexivity.
Qed.

(** X11. When the first piece holds a multiple of eight elements, packing
    a concatenation is the concatenation of the packings: an input can be
    packed in pieces cut at byte boundaries, in either bit order. *)
Theorem packbits_kernel_concatenation (bitorder : string) (t : dtype)
        (d1 d2 : list Z) (m : nat) :
  bitorder = "big" \/ bitorder = "little" ->
  List.length d1 = (8 * m)%nat ->
  Z.of_nat (List.length (d1 ++ d2)) < 2 ^ 31 ->
  exists p1 p2,
    launch_packbits_kernel (PyStr bitorder) (array1 t d1) (size (array1 t d1))
      (zeros ((size (array1 t d1) + 7) / 8) uint8) = Ok (array1 uint8 p1)
    /\ launch_packbits_kernel (PyStr bitorder) (array1 t d2) (size (array1 t d2))
         (zeros ((size (array1 t d2) + 7) / 8) uint8) = Ok (array1 uint8 p2)
    /\ launch_packbits_kernel (PyStr bitorder) (array1 t (d1 ++ d2))
         (size (array1 t (d1 ++ d2)))
         (zeros ((size (array1 t (d1 ++ d2)) + 7) / 8) uint8)
       = Ok (array1 uint8 (p1 ++ p2)).
Proof.
  intros Hbo Hm Hlen. rewrite length_app in Hlen.
  exists (packed_bytes bitorder d1), (packed_bytes bitorder d2).
  rewrite !launch_packbits_kernel_zeros
    by (auto using array1_well_formed; rewrite size_array1, ?length_app; lia).
  unfold array1. cbn [data].
  rewrite <- (packed_bytes_app bitorder d1 d2 m Hm), !packed_bytes_length.
  repeat split.
Qed.

(* ------------------------------------------------------------------ *)
(** ** Instances of the kernel properties *)




(** Two bytes unpacked and packed again, little order. *)
Lemma unpackbits_then_packbits_kernel_witness :
  (unpacked <- unpackbits zero_filled (array1 uint8 [176; 5]) (PyStr "little") ;;
   launch_packbits_kernel (PyStr "little") unpacked (size unpacked)
     (zeros ((size unpacked + 7) / 8) uint8))
  = Ok (mk_ndarray uint8 [2%nat] [176; 5]).
Proof.
  apply (unpackbits_then_packbits_kernel zero_filled "little"
           (array1 uint8 [176; 5])).
  - right. reflexivity.
  - reflexivity.
  - reflexivity.
  - repeat constructor; lia.
  - reflexivity.
Defined.

(** [unpackbits] on a 2 x 1 byte array with the bit order [None]. *)
Lemma unpackbits_outcome_witness :
  let y := mk_ndarray uint8 [2%nat; 1%nat] [176; 5] in
  (dtype_of y <> uint8 ->
   unpackbits zero_filled y PyNone
   = Raise (TypeError "Expected an input array of unsigned byte data type"))
  /\ (dtype_of y = uint8 ->
      In_strs PyNone ["big"; "little"] = false ->
      unpackbits zero_filled y PyNone
      = Raise (ValueError "bitorder must be either 'big' or 'little'"))
  /\ (dtype_of y = uint8 ->
      In_strs PyNone ["big"; "little"] = true ->
      exists out,
        unpackbits zero_filled y PyNone = Ok out
        /\ Z.of_nat (List.length (data out)) = 8 * size y)
  /\ unpackbits zero_filled y PyNone <> Undefined
  /\ (forall key, unpackbits zero_filled y PyNone <> Raise (KeyError key)).
Proof.
  apply (unpackbits_outcome zero_filled
           (mk_ndarray uint8 [2%nat; 1%nat] [176; 5]) PyNone).
  reflexivity.
Defined.

(** The two unpackings of the bytes [0b10110000] and [0b00000101]. *)
Lemma unpackbits_big_little_mirror_witness :
  exists big little,
    unpackbits zero_filled (array1 uint8 [176; 5]) (PyStr "big") = Ok big
    /\ unpackbits zero_filled (array1 uint8 [176; 5]) (PyStr "little") = Ok little
    /\ (forall i j : nat,
           (i < 2)%nat -> (j < 8)%nat ->
           exists bit,
             nth_error (data big) (8 * i + j) = Some bit
             /\ nth_error (data little) (8 * i + (7 - j)) = Some bit).
Proof.
  apply (unpackbits_big_little_mirror zero_filled zero_filled
           (array1 uint8 [176; 5])).
  - reflexivity.
  - reflexivity.
Defined.




(** Unpacking [176] and [5] apart and together. *)
Lemma unpackbits_concatenation_witness :
  exists u1 u2,
    unpackbits zero_filled (array1 uint8 [176]) (PyStr "big") = Ok (array1 uint8 u1)
    /\ unpackbits zero_filled (array1 uint8 [5]) (PyStr "big") = Ok (array1 uint8 u2)
    /\ unpackbits zero_filled (array1 uint8 ([176] ++ [5])) (PyStr "big")
       = Ok (array1 uint8 (u1 ++ u2)).
Proof.
  apply (unpackbits_concatenation zero_filled "big" [176] [5]).
  left. reflexivity.
Defined.

(** Packing eight elements and two more, apart and together. *)
Lemma packbits_kernel_concatenation_witness :
  let d1 := [1; 1; 0; 1; 0; 0; 1; 0] in
  let d2 := [1; 1] in
  exists p1 p2,
    launch_packbits_kernel (PyStr "little") (array1 bool_ d1)
      (size (array1 bool_ d1))
      (zeros ((size (array1 bool_ d1) + 7) / 8) uint8) = Ok (array1 uint8 p1)
    /\ launch_packbits_kernel (PyStr "little") (array1 bool_ d2)
         (size (array1 bool_ d2))
         (zeros ((size (array1 bool_ d2) + 7) / 8) uint8) = Ok (array1 uint8 p2)
    /\ launch_packbits_kernel (PyStr "little") (array1 bool_ (d1 ++ d2))
         (size (array1 bool_ (d1 ++ d2)))
         (zeros ((size (array1 bool_ (d1 ++ d2)) + 7) / 8) uint8)
       = Ok (array1 uint8 (p1 ++ p2)).
Proof.
  apply (packbits_kernel_concatenation "little" bool_
           [1; 1; 0; 1; 0; 0; 1; 0] [1; 1] 1).
  - right. reflexivity.
  - reflexivity.
  - simpl. lia.
Defined.
